(** * A shallow embedding of the Prism AI client (src/index.ts)

    The client is a thin wrapper around [fetch]: every method builds a URL,
    a header object and (for POST) a JSON body, issues at most one request
    and normalises the response.  The embedding keeps that shape:

    - JavaScript values that occur in the code (strings, integer-valued
      numbers, optional arguments, plain objects) are Rocq values;
    - an [async] method is a computation in the monad [Async], which threads
      the list of requests handed to [fetch] and the number of [await]
      suspensions reached, and completes normally or by a thrown exception
      (for an [async] function: the rejection of the promise it returned);
    - what the platform provides ([fetch] over the network, the [URL]
      constructor) is the interface [Platform]. *)

From Stdlib Require Import ZArith String Ascii List Bool Lia DecimalString.
From Stdlib Require DecimalPos DecimalZ.
From stdpp Require Import base option strings gmap.
Import ListNotations.
#[local] Set Warnings "-register-all".
#[local] Open Scope string_scope.
#[local] Open Scope list_scope.

(** ** JavaScript values *)

(** [number] arguments of the client are identifiers, depths and limits:
    the model covers the integer-valued ones.  [Number_toString] is the
    decimal rendering JavaScript gives an integer (of magnitude below 10^21)
    in a string concatenation and in [JSON.stringify]. *)
Definition number : Type := Z.

Definition Number_toString (n : number) : string :=
  NilZero.string_of_int (Z.to_int n).

Inductive JSON : Type :=
| JNull
| JBool (b : bool)
| JNumber (n : number)
| JString (s : string)
| JArray (items : list JSON)
| JObject (fields : list (string * JSON)).

(** [ToBoolean], as used by [if (x)] and [!x]. *)
Definition truthy (v : JSON) : bool :=
  match v with
  | JNull => false
  | JBool b => b
  | JNumber n => negb (n =? 0)%Z
  | JString s => negb (String.eqb s EmptyString)
  | JArray _ | JObject _ => true
  end.

(** An optional argument [x?: T] is [undefined] when omitted. *)
Definition truthy_opt (x : option JSON) : bool :=
  match x with
  | Some v => truthy v
  | None => false
  end.

(** A plain object keeps its string keys in insertion order; assigning to an
    existing key keeps the key's place. *)
Definition object : Type := list (string * JSON).

Fixpoint obj_set (k : string) (v : JSON) (o : object) : object :=
  match o with
  | [] => [(k, v)]
  | (k', v') :: o' =>
      if String.eqb k' k then (k, v) :: o' else (k', v') :: obj_set k v o'
  end.

Fixpoint obj_get (k : string) (o : object) : option JSON :=
  match o with
  | [] => None
  | (k', v') :: o' => if String.eqb k' k then Some v' else obj_get k o'
  end.

Definition obj_keys (o : object) : list string := map fst o.

(** [if (x) body.k = x;] *)
Definition set_if_truthy (k : string) (x : option JSON) (o : object) : object :=
  match x with
  | Some v => if truthy v then obj_set k v o else o
  | None => o
  end.

(** ** JSON.stringify *)

Definition chr (n : nat) : ascii := ascii_of_nat n.
Definition str1 (c : ascii) : string := String c EmptyString.

Definition hex_digit (n : nat) : ascii :=
  if (n <? 10)%nat then chr (48 + n) else chr (87 + n).

(** QuoteJSONString on one character. *)
Definition JSON_quote_char (c : ascii) : string :=
  let n := nat_of_ascii c in
  let esc (s : string) := String (chr 92) s in
  if (n =? 8)%nat then esc "b"
  else if (n =? 9)%nat then esc "t"
  else if (n =? 10)%nat then esc "n"
  else if (n =? 12)%nat then esc "f"
  else if (n =? 13)%nat then esc "r"
  else if (n =? 34)%nat then esc (str1 (chr 34))
  else if (n =? 92)%nat then esc (str1 (chr 92))
  else if (n <? 32)%nat then
    esc ("u00" +:+ str1 (hex_digit (n / 16)) +:+ str1 (hex_digit (n mod 16)))
  else str1 c.

Fixpoint JSON_quote_chars (s : string) : string :=
  match s with
  | EmptyString => EmptyString
  | String c s' => JSON_quote_char c +:+ JSON_quote_chars s'
  end.

Definition JSON_quote (s : string) : string :=
  str1 (chr 34) +:+ JSON_quote_chars s +:+ str1 (chr 34).

Fixpoint join_comma (l : list string) : string :=
  match l with
  | [] => EmptyString
  | [s] => s
  | s :: l' => s +:+ "," +:+ join_comma l'
  end.

Fixpoint JSON_stringify (v : JSON) : string :=
  match v with
  | JNull => "null"
  | JBool true => "true"
  | JBool false => "false"
  | JNumber n => Number_toString n
  | JString s => JSON_quote s
  | JArray items => "[" +:+ join_comma (map JSON_stringify items) +:+ "]"
  | JObject fields =>
      "{" +:+
      join_comma
        (map (fun kv => JSON_quote (fst kv) +:+ ":" +:+ JSON_stringify (snd kv))
             fields)
      +:+ "}"
  end.

(** ** Requests, responses and what a call hands back *)

Inductive HttpMethod : Type := GET | POST | DELETE.

(** The arguments of one [fetch(input, init)]. *)
Record Request : Type := mkRequest {
  input : string;
  method : HttpMethod;
  headers : gmap string string;
  body : option string
}.

(** A [Response]: its status line, its body ([null], or a stream given by
    its chunks) and what [response.json()] resolves to ([None]: the body
    text is not JSON and the promise rejects). *)
Record Response : Type := mkResponse {
  status : Z;
  statusText : string;
  response_body : option (list string);
  response_json : option JSON
}.

(** [Response.ok]: the status is in the range 200-299. *)
Definition ok (r : Response) : bool :=
  (200 <=? status r)%Z && (status r <=? 299)%Z.

Inductive Exception : Type :=
| ValidationError (message : string)
| TypeError (message : string)
| SyntaxError (message : string).

(** How a computation completes; also the settled state of a promise. *)
Inductive Completion (A : Type) : Type :=
| Normal (a : A)
| Throw (e : Exception).
Arguments Normal {A} a.
Arguments Throw {A} e.

Definition Promise (A : Type) : Type := Completion A.

(** What the client methods resolve to: an [Error] value, parsed JSON, the
    raw [Response], or a [StreamingTextResponse] around a body stream. *)
Inductive Value : Type :=
| VError (message : string)
| VJson (v : JSON)
| VResponse (r : Response)
| VStreamingTextResponse (stream : list string).

(** ** The [Async] monad *)

Record World : Type := mkWorld {
  calls : list Request;
  awaits : nat
}.

Definition Async (A : Type) : Type := World -> Completion A * World.

#[global] Instance Async_ret : MRet Async :=
  fun A a w => (Normal a, w).

#[global] Instance Async_bind : MBind Async :=
  fun A B f m w =>
    match m w with
    | (Normal a, w') => f a w'
    | (Throw e, w') => (Throw e, w')
    end.

Definition throw {A : Type} (e : Exception) : Async A :=
  fun w => (Throw e, w).

(** [await p] suspends once and then continues with the settled promise. *)
Definition await {A : Type} (p : Promise A) : Async A :=
  fun w => (p, mkWorld (calls w) (S (awaits w))).

Definition new_world : World := mkWorld [] 0.

(** ** The platform *)

Class Platform : Type := {
  (** [new URL(str)] returns rather than throws *)
  URL_parses : string -> bool;
  (** how the request sent by [fetch] settles: a response, or a network
      failure *)
  network : Request -> Promise Response
}.

(** [fetch(path, {method, headers, body})]: the request leaves when [fetch]
    is called; the promise it returns settles as the network decides. *)
Definition fetch `{Platform} (path : string) (m : HttpMethod)
    (h : gmap string string) (b : option string) : Async (Promise Response) :=
  fun w =>
    let request := mkRequest path m h b in
    (Normal (network request), mkWorld (calls w ++ [request]) (awaits w)).

(** [response.json()] *)
Definition json (r : Response) : Promise JSON :=
  match response_json r with
  | Some v => Normal v
  | None => Throw (SyntaxError "Unexpected end of JSON input")
  end.

(** ** BaseClient and safeFetchCall *)

Record BaseClient : Type := mkBaseClient {
  client_headers : gmap string string;
  api_url : string
}.

Definition new_BaseClient (api_key api_url : string) : BaseClient :=
  mkBaseClient
    (<["Authorization" := api_key]>
       (<["Accept" := "application/json"]>
          (<["Content-Type" := "application/json"]> ∅)))
    api_url.

Definition safeFetchCall (request : Promise Response) : Async Value :=
  response ← await request;
  if negb (ok response) then mret (VError (statusText response))
  else v ← await (json response); mret (VJson v).

(** ** KnowledgeBaseClient *)

Module KnowledgeBaseClient.
Section Methods.
Context `{Platform}.

Definition create (this : BaseClient) (name : string) : Async Value :=
  let methodPath := api_url this +:+ "/users/knowledge_base/" in
  request ← fetch methodPath POST (client_headers this)
              (Some (JSON_stringify (JObject [("name", JString name)])));
  safeFetchCall request.

Definition get (this : BaseClient) (kb_id : number) : Async Value :=
  let methodPath :=
    api_url this +:+ "/users/knowledge_base/" +:+ Number_toString kb_id +:+ "/" in
  request ← fetch methodPath GET (client_headers this) None;
  safeFetchCall request.

Definition delete (this : BaseClient) (kb_id : number) : Async Value :=
  let methodPath :=
    api_url this +:+ "/knowledge_base/" +:+ Number_toString kb_id +:+ "/" in
  request ← fetch methodPath DELETE (client_headers this) None;
  safeFetchCall request.

End Methods.
End KnowledgeBaseClient.

(** ** KnowledgeClient *)

Module KnowledgeClient.

Record create_args : Type := mk_create_args {
  method : string;
  name : string;
  kb_id : number;
  url : option string;
  text : option string;
  recursion : option bool;
  max_recursion : option number;
  only_base_url : option bool
}.

Section Methods.
Context `{Platform}.

Definition isValidURL (str : string) : bool := URL_parses str.

(** The [switch] on [method] yields the path and the body to post, or
    throws; the request is then handed to [fetch] and [safeFetchCall]. *)
Definition create (this : BaseClient) (a : create_args) : Async Value :=
  let body : object := [("name", JString (name a))] in
  '(methodPath, body) ←
    (if String.eqb (method a) "url" then
       match url a with
       | Some u =>
           if negb (truthy (JString u)) || negb (isValidURL u) then
             throw (ValidationError "Invalid or missing URL.")
           else
             let methodPath :=
               api_url this +:+ "/users/knowledge_base/" +:+
               Number_toString (kb_id a) +:+ "/knowledge_from_url/" in
             let body := obj_set "url" (JString u) body in
             let body := set_if_truthy "recursion" (JBool <$> recursion a) body in
             let body :=
               set_if_truthy "max_recursion" (JNumber <$> max_recursion a) body in
             let body :=
               set_if_truthy "only_base_url" (JBool <$> only_base_url a) body in
             mret (methodPath, body)
       | None => throw (ValidationError "Invalid or missing URL.")
       end
     else if String.eqb (method a) "text" then
       match text a with
       | Some t =>
           if negb (truthy (JString t)) then
             throw (ValidationError "Missing text.")
           else
             let methodPath :=
               api_url this +:+ "/users/knowledge_base/" +:+
               Number_toString (kb_id a) +:+ "/knowledge_from_text/" in
             let body := obj_set "text" (JString t) body in
             mret (methodPath, body)
       | None => throw (ValidationError "Missing text.")
       end
     else
       throw (ValidationError
                "Invalid method. Must be 'url', 'text', or 'path'."));
  request ← fetch methodPath POST (client_headers this)
              (Some (JSON_stringify (JObject body)));
  safeFetchCall request.

Definition get (this : BaseClient) (knowledge_id : number) : Async Value :=
  let methodPath :=
    api_url this +:+ "/knowledge/" +:+ Number_toString knowledge_id +:+ "/" in
  request ← fetch methodPath GET (client_headers this) None;
  safeFetchCall request.

Definition delete (this : BaseClient) (knowledge_id : number) : Async Value :=
  let methodPath :=
    api_url this +:+ "/knowledge/" +:+ Number_toString knowledge_id +:+ "/" in
  request ← fetch methodPath DELETE (client_headers this) None;
  safeFetchCall request.

End Methods.
End KnowledgeClient.

(** ** ReplyClient *)

Module ReplyClient.

(** [create] and [stream] take the same set of parameters. *)
Record reply_args : Type := mk_reply_args {
  prompt : string;
  conversation_id : option number;
  knowledge_base : option string;
  max_tokens : option number;
  num_results : option number;
  model : option string
}.

(** The body object, built by the same statements in [create] (lines
    211-218) and in [stream] (lines 260-267). *)
Definition reply_body (a : reply_args) : object :=
  let body : object := [("user_prompt", JString (prompt a))] in
  let body := set_if_truthy "conversation_id" (JNumber <$> conversation_id a) body in
  let body := set_if_truthy "knowledge_base" (JString <$> knowledge_base a) body in
  let body := set_if_truthy "max_tokens" (JNumber <$> max_tokens a) body in
  let body := set_if_truthy "num_results" (JNumber <$> num_results a) body in
  let body := set_if_truthy "model" (JString <$> model a) body in
  body.

Section Methods.
Context `{Platform}.

Definition create (this : BaseClient) (a : reply_args) : Async Value :=
  let methodPath := api_url this +:+ "/response/" in
  let updatedHeadersForStream :=
    <["Accept" := "application/json"]> (client_headers this) in
  let body := reply_body a in
  request ← fetch methodPath POST updatedHeadersForStream
              (Some (JSON_stringify (JObject body)));
  response ← await request;
  match response_body response with
  | None => mret (VError "No response body.")
  | Some _ => mret (VResponse response)
  end.

Definition stream (this : BaseClient) (a : reply_args) : Async Value :=
  let methodPath := api_url this +:+ "/response_stream/" in
  let updatedHeadersForStream :=
    <["Accept" := "text/response-stream"]> (client_headers this) in
  let body := reply_body a in
  request ← fetch methodPath POST updatedHeadersForStream
              (Some (JSON_stringify (JObject body)));
  response ← await request;
  match response_body response with
  | None => mret (VError "No response body.")
  | Some chunks => mret (VStreamingTextResponse chunks)
  end.

End Methods.
End ReplyClient.

(** ** The factory *)

Record Facade : Type := mkFacade {
  KnowledgeBase : BaseClient;
  Knowledge : BaseClient;
  Reply : BaseClient
}.

Definition pai (api_key : string) : Facade :=
  let api_url := "https://api.prism-ai.ch" in
  let knowledgeBaseClient := new_BaseClient api_key api_url in
  let knowledgeClient := new_BaseClient api_key api_url in
  let replyClient := new_BaseClient api_key api_url in
  mkFacade knowledgeBaseClient knowledgeClient replyClient.

(** ** The operations of the facade, as one family

    [perform] dispatches to the method an [Operation] names, so that a
    statement can speak of every client operation at once. *)

Inductive Operation : Type :=
| KnowledgeBase_create (name : string)
| KnowledgeBase_get (kb_id : number)
| KnowledgeBase_delete (kb_id : number)
| Knowledge_create (a : KnowledgeClient.create_args)
| Knowledge_get (knowledge_id : number)
| Knowledge_delete (knowledge_id : number)
| Reply_create (a : ReplyClient.reply_args)
| Reply_stream (a : ReplyClient.reply_args).

Definition perform `{Platform} (f : Facade) (op : Operation) : Async Value :=
  match op with
  | KnowledgeBase_create name => KnowledgeBaseClient.create (KnowledgeBase f) name
  | KnowledgeBase_get kb_id => KnowledgeBaseClient.get (KnowledgeBase f) kb_id
  | KnowledgeBase_delete kb_id => KnowledgeBaseClient.delete (KnowledgeBase f) kb_id
  | Knowledge_create a => KnowledgeClient.create (Knowledge f) a
  | Knowledge_get knowledge_id => KnowledgeClient.get (Knowledge f) knowledge_id
  | Knowledge_delete knowledge_id => KnowledgeClient.delete (Knowledge f) knowledge_id
  | Reply_create a => ReplyClient.create (Reply f) a
  | Reply_stream a => ReplyClient.stream (Reply f) a
  end.

(** The client an operation is a method of. *)
Definition client_of (f : Facade) (op : Operation) : BaseClient :=
  match op with
  | KnowledgeBase_create _ | KnowledgeBase_get _ | KnowledgeBase_delete _ =>
      KnowledgeBase f
  | Knowledge_create _ | Knowledge_get _ | Knowledge_delete _ => Knowledge f
  | Reply_create _ | Reply_stream _ => Reply f
  end.

(** The operations that hand their request to [safeFetchCall]. *)
Definition normalised (op : Operation) : bool :=
  match op with
  | Reply_create _ | Reply_stream _ => false
  | _ => true
  end.

(** The requests handed to [fetch] while [m] runs from [w]. *)
Definition issued {A : Type} (m : Async A) (w : World) : list Request :=
  drop (length (calls w)) (calls (snd (m w))).

(** [s.includes(sub)] *)
Definition includes (sub s : string) : bool :=
  match String.index 0 sub s with
  | Some _ => true
  | None => false
  end.

(** ** The specification's side

    Definitions that follow the words of the specification, to compare the
    code with. *)

(** Section 6, the table of operations: HTTP method and path. *)
Definition endpoint (op : Operation) : option (HttpMethod * string) :=
  match op with
  | KnowledgeBase_create _ => Some (POST, "/users/knowledge_base/")
  | KnowledgeBase_get kb_id =>
      Some (GET, "/users/knowledge_base/" +:+ Number_toString kb_id +:+ "/")
  | KnowledgeBase_delete kb_id =>
      Some (DELETE, "/knowledge_base/" +:+ Number_toString kb_id +:+ "/")
  | Knowledge_create a =>
      if String.eqb (KnowledgeClient.method a) "url" then
        Some (POST, "/users/knowledge_base/" +:+
                    Number_toString (KnowledgeClient.kb_id a) +:+
                    "/knowledge_from_url/")
      else if String.eqb (KnowledgeClient.method a) "text" then
        Some (POST, "/users/knowledge_base/" +:+
                    Number_toString (KnowledgeClient.kb_id a) +:+
                    "/knowledge_from_text/")
      else None
  | Knowledge_get knowledge_id =>
      Some (GET, "/knowledge/" +:+ Number_toString knowledge_id +:+ "/")
  | Knowledge_delete knowledge_id =>
      Some (DELETE, "/knowledge/" +:+ Number_toString knowledge_id +:+ "/")
  | Reply_create _ => Some (POST, "/response/")
  | Reply_stream _ => Some (POST, "/response_stream/")
  end.

(** Section 4.4, the requests that pass validation: a URL that is present
    and parseable for "url", a non-empty text for "text"; the other clients
    validate nothing. *)
Definition well_formed `{Platform} (op : Operation) : bool :=
  match op with
  | Knowledge_create a =>
      if String.eqb (KnowledgeClient.method a) "url" then
        match KnowledgeClient.url a with
        | Some u => negb (String.eqb u EmptyString) && URL_parses u
        | None => false
        end
      else if String.eqb (KnowledgeClient.method a) "text" then
        match KnowledgeClient.text a with
        | Some t => negb (String.eqb t EmptyString)
        | None => false
        end
      else false
  | _ => true
  end.

(** A body as testable property 1 words it: the required fields, then every
    optional field the caller supplied. *)
Definition supplied (k : string) (x : option JSON) : object :=
  match x with
  | Some v => [(k, v)]
  | None => []
  end.

Definition url_body_as_specified (a : KnowledgeClient.create_args)
    (u : string) : object :=
  [("name", JString (KnowledgeClient.name a)); ("url", JString u)]
  ++ supplied "recursion" (JBool <$> KnowledgeClient.recursion a)
  ++ supplied "max_recursion" (JNumber <$> KnowledgeClient.max_recursion a)
  ++ supplied "only_base_url" (JBool <$> KnowledgeClient.only_base_url a).

Definition reply_body_as_specified (a : ReplyClient.reply_args) : object :=
  [("user_prompt", JString (ReplyClient.prompt a))]
  ++ supplied "conversation_id" (JNumber <$> ReplyClient.conversation_id a)
  ++ supplied "knowledge_base" (JString <$> ReplyClient.knowledge_base a)
  ++ supplied "max_tokens" (JNumber <$> ReplyClient.max_tokens a)
  ++ supplied "num_results" (JNumber <$> ReplyClient.num_results a)
  ++ supplied "model" (JString <$> ReplyClient.model a).

(** What the code keeps of an optional field: the value, when it was
    supplied and is truthy. *)
Definition kept (k : string) (x : option JSON) : object :=
  match x with
  | Some v => if truthy v then [(k, v)] else []
  | None => []
  end.

Definition url_body_kept (a : KnowledgeClient.create_args) (u : string) : object :=
  [("name", JString (KnowledgeClient.name a)); ("url", JString u)]
  ++ kept "recursion" (JBool <$> KnowledgeClient.recursion a)
  ++ kept "max_recursion" (JNumber <$> KnowledgeClient.max_recursion a)
  ++ kept "only_base_url" (JBool <$> KnowledgeClient.only_base_url a).

Definition reply_body_kept (a : ReplyClient.reply_args) : object :=
  [("user_prompt", JString (ReplyClient.prompt a))]
  ++ kept "conversation_id" (JNumber <$> ReplyClient.conversation_id a)
  ++ kept "knowledge_base" (JString <$> ReplyClient.knowledge_base a)
  ++ kept "max_tokens" (JNumber <$> ReplyClient.max_tokens a)
  ++ kept "num_results" (JNumber <$> ReplyClient.num_results a)
  ++ kept "model" (JString <$> ReplyClient.model a).

(** ** Platforms to run the model on *)

Definition sample_URL_parses (s : string) : bool :=
  String.prefix "http://" s || String.prefix "https://" s.

(** A server that answers every request with [r]. *)
Definition server_replying (r : Response) : Platform :=
  {| URL_parses := sample_URL_parses; network := fun _ => Normal r |}.

Definition kb1 : JSON :=
  JObject [("id", JNumber 1%Z); ("owner_id", JNumber 5%Z); ("name", JString "kb1");
           ("created", JString "t1"); ("updated", JString "t1");
           ("knowledges", JArray [])].

Definition response_200 : Response :=
  mkResponse 200%Z "OK" (Some [JSON_stringify kb1]) (Some kb1).

Definition response_404 : Response :=
  mkResponse 404%Z "Not Found" (Some ["Not Found"]) None.

Definition response_500 : Response :=
  mkResponse 500%Z "Internal Server Error" (Some ["oops"]) None.

(** A response whose body is present and has no content. *)
Definition response_empty_body : Response :=
  mkResponse 200%Z "OK" (Some []) None.

(** A response without a body ([response.body] is [null]). *)
Definition response_no_body : Response :=
  mkResponse 204%Z "No Content" None None.

Definition url_args : KnowledgeClient.create_args :=
  KnowledgeClient.mk_create_args "url" "docs" 7%Z (Some "https://example.org/a")
    (Some "ignored") (Some true) (Some 3%Z) (Some false).

Definition text_args : KnowledgeClient.create_args :=
  KnowledgeClient.mk_create_args "text" "note" 7%Z (Some "https://example.org/a")
    (Some "hello") (Some true) (Some 3%Z) (Some true).

Definition text_only_args : KnowledgeClient.create_args :=
  KnowledgeClient.mk_create_args "text" "note" 7%Z (Some "not a url")
    (Some "hello") None None None.

Definition reply_args0 : ReplyClient.reply_args :=
  ReplyClient.mk_reply_args "hi" None (Some "kb1") (Some 0%Z) None None.

Definition stream_request0 : Request :=
  mkRequest "https://api.prism-ai.ch/response_stream/" POST
    (<["Accept" := "text/response-stream"]>
       (client_headers (new_BaseClient "key" "https://api.prism-ai.ch")))
    (Some (JSON_stringify (JObject (ReplyClient.reply_body reply_args0)))).

(** A network on which every request fails. *)
Definition server_failing : Platform :=
  {| URL_parses := sample_URL_parses;
     network := fun _ => Throw (TypeError "fetch failed") |}.

Definition bad_url_args : KnowledgeClient.create_args :=
  KnowledgeClient.mk_create_args "url" "docs" 7%Z (Some "not a url")
    None None None None.

Definition no_text_args : KnowledgeClient.create_args :=
  KnowledgeClient.mk_create_args "text" "note" 7%Z None (Some EmptyString)
    None None None.

Definition path_args : KnowledgeClient.create_args :=
  KnowledgeClient.mk_create_args "path" "file" 7%Z None None None None None.

(** * Properties *)

(** ** Running the monad *)

Ltac run_async :=
  unfold KnowledgeBaseClient.create, KnowledgeBaseClient.get,
    KnowledgeBaseClient.delete, KnowledgeClient.create, KnowledgeClient.get,
    KnowledgeClient.delete, KnowledgeClient.isValidURL, ReplyClient.create,
    ReplyClient.stream, safeFetchCall, json, fetch, await, throw,
    mbind, mret, Async_bind, Async_ret;
  cbn [fst snd calls awaits].

Lemma safeFetchCall_calls (p : Promise Response) (w : World) :
  calls (snd (safeFetchCall p w)) = calls w.
Proof.
  run_async. destruct p as [r|e]; [|reflexivity].
  destruct (ok r); cbn; [|reflexivity].
  destruct (response_json r); reflexivity.
Qed.

Lemma issued_app {A : Type} (m : Async A) (w : World) (l : list Request) :
  calls (snd (m w)) = calls w ++ l -> issued m w = l.
Proof. unfold issued. intros ->. apply drop_app_length. Qed.

(** A request handed to [fetch] and then to [safeFetchCall]. *)
Lemma fetch_safeFetchCall_calls `{Platform} path m h b (w : World) :
  calls (snd ((request ← fetch path m h b; safeFetchCall request) w))
  = calls w ++ [mkRequest path m h b].
Proof.
  unfold mbind, Async_bind, fetch. cbn [fst snd].
  now rewrite safeFetchCall_calls.
Qed.

(** ** Objects *)

Lemma obj_get_app (k : string) (o1 o2 : object) :
  obj_get k (o1 ++ o2)
  = match obj_get k o1 with Some v => Some v | None => obj_get k o2 end.
Proof.
  induction o1 as [|[k' v'] o1 IH]; cbn; [reflexivity|].
  destruct (String.eqb k' k); [reflexivity | exact IH].
Qed.

Lemma obj_set_fresh (k : string) (v : JSON) (o : object) :
  obj_get k o = None -> obj_set k v o = o ++ [(k, v)].
Proof.
  induction o as [|[k' v'] o IH]; cbn; [reflexivity|].
  destruct (String.eqb k' k); [discriminate|].
  intros Hk. now rewrite IH.
Qed.

Lemma obj_get_set_eq (k : string) (v : JSON) (o : object) :
  obj_get k (obj_set k v o) = Some v.
Proof.
  induction o as [|[k' v'] o IH]; cbn.
  - now rewrite String.eqb_refl.
  - destruct (String.eqb k' k) eqn:E; cbn.
    + now rewrite String.eqb_refl.
    + now rewrite E.
Qed.

Lemma obj_get_kept_ne (k k' : string) (x : option JSON) :
  String.eqb k' k = false -> obj_get k (kept k' x) = None.
Proof.
  intros Hk. destruct x as [v|]; cbn; [|reflexivity].
  destruct (truthy v); cbn; [|reflexivity].
  now rewrite Hk.
Qed.

Lemma set_if_truthy_fresh (k : string) (x : option JSON) (o : object) :
  obj_get k o = None -> set_if_truthy k x o = o ++ kept k x.
Proof.
  intros Hk. destruct x as [v|]; cbn; [|now rewrite app_nil_r].
  destruct (truthy v); [now apply obj_set_fresh | now rewrite app_nil_r].
Qed.

(** A kept field is one the caller supplied, with a truthy value. *)
Lemma kept_supplied_truthy (k : string) (x : option JSON) :
  kept k x = if truthy_opt x then supplied k x else [].
Proof. destruct x as [v|]; cbn; [destruct (truthy v)|]; reflexivity. Qed.

Ltac fresh_key :=
  repeat (rewrite obj_get_app);
  repeat (rewrite obj_get_kept_ne by reflexivity);
  reflexivity.

Lemma reply_body_is_kept (a : ReplyClient.reply_args) :
  ReplyClient.reply_body a = reply_body_kept a.
Proof.
  unfold ReplyClient.reply_body, reply_body_kept.
  rewrite (set_if_truthy_fresh "conversation_id") by fresh_key.
  rewrite (set_if_truthy_fresh "knowledge_base") by fresh_key.
  rewrite (set_if_truthy_fresh "max_tokens") by fresh_key.
  rewrite (set_if_truthy_fresh "num_results") by fresh_key.
  rewrite (set_if_truthy_fresh "model") by fresh_key.
  now rewrite <- !app_assoc.
Qed.

Lemma url_body_is_kept (a : KnowledgeClient.create_args) (u : string) :
  set_if_truthy "only_base_url" (JBool <$> KnowledgeClient.only_base_url a)
    (set_if_truthy "max_recursion" (JNumber <$> KnowledgeClient.max_recursion a)
       (set_if_truthy "recursion" (JBool <$> KnowledgeClient.recursion a)
          (obj_set "url" (JString u)
             [("name", JString (KnowledgeClient.name a))])))
  = url_body_kept a u.
Proof.
  unfold url_body_kept. cbn [obj_set String.eqb Ascii.eqb Bool.eqb].
  rewrite (set_if_truthy_fresh "recursion") by fresh_key.
  rewrite (set_if_truthy_fresh "max_recursion") by fresh_key.
  rewrite (set_if_truthy_fresh "only_base_url") by fresh_key.
  now rewrite <- !app_assoc.
Qed.

(** ** The request each method issues *)

Lemma knowledge_create_url_calls `{Platform} (this : BaseClient)
    (a : KnowledgeClient.create_args) (u : string) (w : World) :
  KnowledgeClient.method a = "url" ->
  KnowledgeClient.url a = Some u ->
  u <> EmptyString ->
  URL_parses u = true ->
  calls (snd (KnowledgeClient.create this a w))
  = calls w ++
    [mkRequest
       (api_url this +:+ "/users/knowledge_base/" +:+
        Number_toString (KnowledgeClient.kb_id a) +:+ "/knowledge_from_url/")
       POST (client_headers this)
       (Some (JSON_stringify (JObject (url_body_kept a u))))].
Proof.
  intros Hm Hu Hne Hp.
  unfold KnowledgeClient.create, KnowledgeClient.isValidURL.
  rewrite Hm, Hu, Hp. cbn [String.eqb Ascii.eqb Bool.eqb truthy].
  destruct u as [|c u]; [contradiction|].
  cbn [negb orb String.eqb]. rewrite url_body_is_kept.
  apply fetch_safeFetchCall_calls.
Qed.

Lemma knowledge_create_text_calls `{Platform} (this : BaseClient)
    (a : KnowledgeClient.create_args) (t : string) (w : World) :
  KnowledgeClient.method a = "text" ->
  KnowledgeClient.text a = Some t ->
  t <> EmptyString ->
  calls (snd (KnowledgeClient.create this a w))
  = calls w ++
    [mkRequest
       (api_url this +:+ "/users/knowledge_base/" +:+
        Number_toString (KnowledgeClient.kb_id a) +:+ "/knowledge_from_text/")
       POST (client_headers this)
       (Some (JSON_stringify
                (JObject [("name", JString (KnowledgeClient.name a));
                          ("text", JString t)])))].
Proof.
  intros Hm Ht Hne.
  unfold KnowledgeClient.create.
  rewrite Hm, Ht. cbn [String.eqb Ascii.eqb Bool.eqb truthy].
  destruct t as [|c t]; [contradiction|].
  cbn [negb String.eqb obj_set Ascii.eqb Bool.eqb].
  apply fetch_safeFetchCall_calls.
Qed.

Lemma knowledge_create_cases `{Platform} (this : BaseClient)
    (a : KnowledgeClient.create_args) (w : World) :
  (well_formed (Knowledge_create a) = false /\
   exists message,
     KnowledgeClient.create this a w = (Throw (ValidationError message), w))
  \/
  (well_formed (Knowledge_create a) = true /\
   exists path fields,
     endpoint (Knowledge_create a) = Some (POST, path) /\
     KnowledgeClient.create this a w
     = (request ← fetch (api_url this +:+ path) POST (client_headers this)
                    (Some (JSON_stringify (JObject fields)));
        safeFetchCall request) w).
Proof.
  unfold KnowledgeClient.create, KnowledgeClient.isValidURL, well_formed, endpoint.
  destruct (String.eqb (KnowledgeClient.method a) "url").
  - destruct (KnowledgeClient.url a) as [u|]; [|left; split; eauto].
    cbn [truthy]. destruct (String.eqb u EmptyString); cbn [negb orb andb].
    + left; split; eauto.
    + destruct (URL_parses u); cbn [negb].
      * right; split; eauto.
      * left; split; eauto.
  - destruct (String.eqb (KnowledgeClient.method a) "text").
    + destruct (KnowledgeClient.text a) as [t|]; [|left; split; eauto].
      cbn [truthy]. destruct (String.eqb t EmptyString); cbn [negb].
      * left; split; eauto.
      * right; split; eauto.
    + left; split; eauto.
Qed.

(** Every operation that passes validation is one [fetch] of its endpoint,
    followed by the normalisation of its client. *)
Lemma normalised_cases `{Platform} (f : Facade) (op : Operation) (w : World) :
  normalised op = true ->
  well_formed op = true ->
  exists m path b,
    endpoint op = Some (m, path) /\
    perform f op w
    = (request ← fetch (api_url (client_of f op) +:+ path) m
                   (client_headers (client_of f op)) b;
       safeFetchCall request) w.
Proof.
  intros Hn Hwf. destruct op; try discriminate Hn; cbn [perform client_of].
  1-3, 5-6: (do 3 eexists; split; [reflexivity|reflexivity]).
  destruct (knowledge_create_cases (Knowledge f) a w)
    as [[Hf _] | [_ (path & fields & He & Hr)]].
  - rewrite Hf in Hwf. discriminate.
  - exists POST, path. eexists. split; [exact He | exact Hr].
Qed.

Lemma fetch_safeFetchCall_run `{Platform} path m h b (w : World) :
  (request ← fetch path m h b; safeFetchCall request) w
  = safeFetchCall (network (mkRequest path m h b))
      (mkWorld (calls w ++ [mkRequest path m h b]) (awaits w)).
Proof. reflexivity. Qed.

Lemma safeFetchCall_failed (r : Response) (w : World) :
  ok r = false ->
  safeFetchCall (Normal r) w
  = (Normal (VError (statusText r)), mkWorld (calls w) (S (awaits w))).
Proof. intros Hok. run_async. now rewrite Hok. Qed.

Lemma safeFetchCall_parsed (r : Response) (v : JSON) (w : World) :
  ok r = true ->
  response_json r = Some v ->
  safeFetchCall (Normal r) w
  = (Normal (VJson v), mkWorld (calls w) (S (S (awaits w)))).
Proof. intros Hok Hj. run_async. now rewrite Hok, Hj. Qed.

Lemma ok_false_iff (r : Response) :
  ok r = false <-> (status r < 200 \/ 299 < status r)%Z.
Proof. unfold ok. rewrite andb_false_iff, !Z.leb_gt. reflexivity. Qed.

Lemma ok_true_iff (r : Response) :
  ok r = true <-> (200 <= status r <= 299)%Z.
Proof. unfold ok. rewrite andb_true_iff, !Z.leb_le. reflexivity. Qed.

(** The two reply methods, run to their end. *)
Lemma reply_create_run `{Platform} (this : BaseClient)
    (a : ReplyClient.reply_args) (w : World) :
  let request :=
    mkRequest (api_url this +:+ "/response/") POST
      (<["Accept" := "application/json"]> (client_headers this))
      (Some (JSON_stringify (JObject (ReplyClient.reply_body a)))) in
  ReplyClient.create this a w
  = (match network request with
     | Normal response =>
         match response_body response with
         | None => Normal (VError "No response body.")
         | Some _ => Normal (VResponse response)
         end
     | Throw e => Throw e
     end,
     mkWorld (calls w ++ [request]) (S (awaits w))).
Proof.
  cbn zeta. run_async.
  destruct (network _) as [r|e]; [|reflexivity].
  destruct (response_body r); reflexivity.
Qed.

Lemma reply_stream_run `{Platform} (this : BaseClient)
    (a : ReplyClient.reply_args) (w : World) :
  let request :=
    mkRequest (api_url this +:+ "/response_stream/") POST
      (<["Accept" := "text/response-stream"]> (client_headers this))
      (Some (JSON_stringify (JObject (ReplyClient.reply_body a)))) in
  ReplyClient.stream this a w
  = (match network request with
     | Normal response =>
         match response_body response with
         | None => Normal (VError "No response body.")
         | Some chunks => Normal (VStreamingTextResponse chunks)
         end
     | Throw e => Throw e
     end,
     mkWorld (calls w ++ [request]) (S (awaits w))).
Proof.
  cbn zeta. run_async.
  destruct (network _) as [r|e]; [|reflexivity].
  destruct (response_body r); reflexivity.
Qed.

Lemma last_call_eq (l : list Request) (r1 r2 : Request) :
  l ++ [r1] = l ++ [r2] -> r1 = r2.
Proof. intros E. apply app_inv_head in E. now injection E. Qed.

Lemma perform_issued `{Platform} (f : Facade) (op : Operation) (w : World) :
  well_formed op = true ->
  exists m path b,
    endpoint op = Some (m, path) /\
    issued (perform f op) w
    = [mkRequest (api_url (client_of f op) +:+ path) m
         match op with
         | Reply_create _ =>
             <["Accept" := "application/json"]> (client_headers (Reply f))
         | Reply_stream _ =>
             <["Accept" := "text/response-stream"]> (client_headers (Reply f))
         | _ => client_headers (client_of f op)
         end b].
Proof.
  intros Hwf. destruct (normalised op) eqn:Hn.
  - destruct (normalised_cases f op w Hn Hwf) as (m & path & b & He & Hr).
    exists m, path, b. split; [exact He|].
    apply issued_app. rewrite Hr, fetch_safeFetchCall_calls.
    destruct op; try discriminate Hn; reflexivity.
  - destruct op; try discriminate Hn; cbn [perform client_of endpoint].
    + exists POST, "/response/". eexists. split; [reflexivity|].
      apply issued_app. pose proof (reply_create_run (Reply f) a w) as E.
      cbn zeta in E. rewrite E. reflexivity.
    + exists POST, "/response_stream/". eexists. split; [reflexivity|].
      apply issued_app. pose proof (reply_stream_run (Reply f) a w) as E.
      cbn zeta in E. rewrite E. reflexivity.
Qed.

Lemma perform_issued_invalid `{Platform} (f : Facade) (op : Operation)
    (w : World) :
  well_formed op = false -> issued (perform f op) w = [].
Proof.
  intros Hwf. destruct op; try discriminate Hwf. cbn [perform].
  destruct (knowledge_create_cases (Knowledge f) a w)
    as [[_ (msg & E)] | [Ht _]].
  - apply issued_app. rewrite E. cbn. now rewrite app_nil_r.
  - rewrite Ht in Hwf. discriminate.
Qed.

Lemma new_BaseClient_headers (api_key url : string) :
  client_headers (new_BaseClient api_key url) !! "Content-Type"
    = Some "application/json"
  /\ client_headers (new_BaseClient api_key url) !! "Authorization"
     = Some api_key
  /\ client_headers (new_BaseClient api_key url) !! "Accept"
     = Some "application/json".
Proof.
  unfold new_BaseClient; cbn [client_headers]. split; [|split].
  - rewrite !lookup_insert_ne by discriminate. apply lookup_insert_eq.
  - apply lookup_insert_eq.
  - rewrite lookup_insert_ne by discriminate. apply lookup_insert_eq.
Qed.

(** ** Validation in KnowledgeClient.create *)

(** C1. [KnowledgeClient.create] with method "url" and a url that is absent
    or that the URL parser refuses fails with the validation error
    "Invalid or missing URL." in the synchronous part of the call: the world
    is left as it was, so no request was handed to [fetch] and no [await]
    was reached (the [async] method delivers the throw as the rejection of
    the promise it returns). *)
Theorem create_url_invalid_fails_fast `{Platform} (this : BaseClient)
    (a : KnowledgeClient.create_args) (w : World) :
  KnowledgeClient.method a = "url" ->
  (KnowledgeClient.url a = None \/
   exists u, KnowledgeClient.url a = Some u /\ URL_parses u = false) ->
  KnowledgeClient.create this a w
    = (Throw (ValidationError "Invalid or missing URL."), w)
  /\ issued (KnowledgeClient.create this a) w = []
  /\ awaits (snd (KnowledgeClient.create this a w)) = awaits w.
Proof.
  intros Hm Hu.
  assert (E : KnowledgeClient.create this a w
              = (Throw (ValidationError "Invalid or missing URL."), w)).
  { run_async. rewrite Hm. cbn.
    destruct Hu as [-> | (u & -> & Hp)]; [reflexivity|].
    rewrite Hp, orb_true_r. reflexivity. }
  split; [exact E|]. split.
  - apply issued_app. rewrite E. cbn. now rewrite app_nil_r.
  - now rewrite E.
Qed.

Lemma create_url_invalid_fails_fast_witness :
  KnowledgeClient.create (H := server_replying response_200)
    (Knowledge (pai "key")) bad_url_args new_world
    = (Throw (ValidationError "Invalid or missing URL."), new_world)
  /\ issued (KnowledgeClient.create (H := server_replying response_200)
               (Knowledge (pai "key")) bad_url_args) new_world = []
  /\ awaits (snd (KnowledgeClient.create (H := server_replying response_200)
               (Knowledge (pai "key")) bad_url_args new_world))
     = awaits new_world.
Proof.
  apply (create_url_invalid_fails_fast (H := server_replying response_200)
           (Knowledge (pai "key")) bad_url_args new_world).
  - reflexivity.
  - right. exists "not a url". split; reflexivity.
Defined.

(** C2. [KnowledgeClient.create] with method "text" and a text that is
    omitted or empty fails with the validation error "Missing text." before
    any request is handed to [fetch] and before any [await]. *)
Theorem create_text_missing_fails_fast `{Platform} (this : BaseClient)
    (a : KnowledgeClient.create_args) (w : World) :
  KnowledgeClient.method a = "text" ->
  (KnowledgeClient.text a = None \/ KnowledgeClient.text a = Some EmptyString) ->
  KnowledgeClient.create this a w = (Throw (ValidationError "Missing text."), w)
  /\ issued (KnowledgeClient.create this a) w = []
  /\ awaits (snd (KnowledgeClient.create this a w)) = awaits w.
Proof.
  intros Hm Ht.
  assert (E : KnowledgeClient.create this a w
              = (Throw (ValidationError "Missing text."), w)).
  { run_async. rewrite Hm. cbn. destruct Ht as [-> | ->]; reflexivity. }
  split; [exact E|]. split.
  - apply issued_app. rewrite E. cbn. now rewrite app_nil_r.
  - now rewrite E.
Qed.

Lemma create_text_missing_fails_fast_witness :
  KnowledgeClient.create (H := server_replying response_200)
    (Knowledge (pai "key")) no_text_args new_world
    = (Throw (ValidationError "Missing text."), new_world)
  /\ issued (KnowledgeClient.create (H := server_replying response_200)
               (Knowledge (pai "key")) no_text_args) new_world = []
  /\ awaits (snd (KnowledgeClient.create (H := server_replying response_200)
               (Knowledge (pai "key")) no_text_args new_world))
     = awaits new_world.
Proof.
  apply (create_text_missing_fails_fast (H := server_replying response_200)
           (Knowledge (pai "key")) no_text_args new_world).
  - reflexivity.
  - right. reflexivity.
Defined.

(** C3. [KnowledgeClient.create] with a method other than "url" and "text"
    ("path" is such a method) fails with a validation error whose message
    names 'url' and 'text' (and 'path'), and hands no request to [fetch]. *)
Theorem create_unknown_method_fails_fast `{Platform} (this : BaseClient)
    (a : KnowledgeClient.create_args) (w : World) :
  KnowledgeClient.method a <> "url" ->
  KnowledgeClient.method a <> "text" ->
  exists message,
    KnowledgeClient.create this a w = (Throw (ValidationError message), w)
    /\ issued (KnowledgeClient.create this a) w = []
    /\ includes "'url'" message = true
    /\ includes "'text'" message = true
    /\ message = "Invalid method. Must be 'url', 'text', or 'path'.".
Proof.
  intros Hu Ht.
  exists "Invalid method. Must be 'url', 'text', or 'path'.".
  assert (E : KnowledgeClient.create this a w
              = (Throw (ValidationError
                   "Invalid method. Must be 'url', 'text', or 'path'."), w)).
  { run_async.
    destruct (String.eqb_spec (KnowledgeClient.method a) "url") as [?|_];
      [contradiction|].
    destruct (String.eqb_spec (KnowledgeClient.method a) "text") as [?|_];
      [contradiction|].
    reflexivity. }
  split; [exact E|]. split.
  - apply issued_app. rewrite E. cbn. now rewrite app_nil_r.
  - repeat split; reflexivity.
Qed.

Lemma create_unknown_method_fails_fast_witness :
  exists message,
    KnowledgeClient.create (H := server_replying response_200)
      (Knowledge (pai "key")) path_args new_world
      = (Throw (ValidationError message), new_world)
    /\ issued (KnowledgeClient.create (H := server_replying response_200)
                 (Knowledge (pai "key")) path_args) new_world = []
    /\ includes "'url'" message = true
    /\ includes "'text'" message = true
    /\ message = "Invalid method. Must be 'url', 'text', or 'path'.".
Proof.
  apply (create_unknown_method_fails_fast (H := server_replying response_200)
           (Knowledge (pai "key")) path_args new_world);
    cbn; discriminate.
Defined.

(** ** Response normalisation *)

(** C4. On a resolved response, [safeFetchCall] returns an error value whose
    message is the response's status text when the status is outside
    200-299, and otherwise the JSON value that [response.json()] resolves
    to, as it is. *)
Theorem safeFetchCall_normalises (r : Response) (w : World) :
  ((status r < 200 \/ 299 < status r)%Z ->
   fst (safeFetchCall (Normal r) w) = Normal (VError (statusText r)))
  /\
  ((200 <= status r <= 299)%Z ->
   forall v : JSON, response_json r = Some v ->
   fst (safeFetchCall (Normal r) w) = Normal (VJson v)).
Proof.
  split.
  - intros Hs. apply ok_false_iff in Hs. now rewrite safeFetchCall_failed.
  - intros Hs v Hv. apply ok_true_iff in Hs.
    now rewrite (safeFetchCall_parsed r v).
Qed.

Lemma safeFetchCall_normalises_witness :
  fst (safeFetchCall (Normal response_404) new_world)
    = Normal (VError "Not Found")
  /\ fst (safeFetchCall (Normal response_200) new_world) = Normal (VJson kb1).
Proof.
  split.
  - apply (proj1 (safeFetchCall_normalises response_404 new_world)).
    right. reflexivity.
  - apply (proj2 (safeFetchCall_normalises response_200 new_world)).
    + split; discriminate.
    + reflexivity.
Defined.

(** ** Request bodies *)

(** C5, as stated, fails: [KnowledgeClient.create] called in "url" mode with
    [only_base_url: false] posts a body without [only_base_url], not the
    required fields plus every optional field the caller supplied; and
    [ReplyClient.create] called with [max_tokens: 0] posts a body without
    [max_tokens]. *)
Lemma create_drops_supplied_falsy_optionals :
  (KnowledgeClient.only_base_url url_args = Some false
   /\ map body
        (issued (KnowledgeClient.create (H := server_replying response_200)
                   (Knowledge (pai "key")) url_args) new_world)
      = [Some (JSON_stringify
                 (JObject [("name", JString "docs");
                           ("url", JString "https://example.org/a");
                           ("recursion", JBool true);
                           ("max_recursion", JNumber 3%Z)]))]
   /\ map body
        (issued (KnowledgeClient.create (H := server_replying response_200)
                   (Knowledge (pai "key")) url_args) new_world)
      <> [Some (JSON_stringify
                  (JObject (url_body_as_specified url_args
                              "https://example.org/a")))])
  /\
  (ReplyClient.max_tokens reply_args0 = Some 0%Z
   /\ map body
        (issued (ReplyClient.create (H := server_replying response_200)
                   (Reply (pai "key")) reply_args0) new_world)
      = [Some (JSON_stringify
                 (JObject [("user_prompt", JString "hi");
                           ("knowledge_base", JString "kb1")]))]
   /\ map body
        (issued (ReplyClient.create (H := server_replying response_200)
                   (Reply (pai "key")) reply_args0) new_world)
      <> [Some (JSON_stringify
                  (JObject (reply_body_as_specified reply_args0)))]).
Proof.
  split; (split; [reflexivity|]; split; [reflexivity|]);
    vm_compute; discriminate.
Qed.

(** C5, amended. The body of a well-formed creation request is the required
    fields followed by exactly those optional fields that were supplied with
    a truthy value ([true], a non-zero number, a non-empty string), in the
    order of the code; an omitted optional field contributes nothing.  For
    [KnowledgeClient.create] the optional fields are those of the "url"
    mode; the "text" mode posts the name and the text. *)
Theorem creation_body_keeps_truthy_optionals `{Platform} (this : BaseClient)
    (w : World) :
  (forall (a : KnowledgeClient.create_args) (u : string),
      KnowledgeClient.method a = "url" ->
      KnowledgeClient.url a = Some u ->
      u <> EmptyString ->
      URL_parses u = true ->
      map body (issued (KnowledgeClient.create this a) w)
      = [Some (JSON_stringify
                 (JObject
                    ([("name", JString (KnowledgeClient.name a));
                      ("url", JString u)]
                     ++ kept "recursion" (JBool <$> KnowledgeClient.recursion a)
                     ++ kept "max_recursion"
                          (JNumber <$> KnowledgeClient.max_recursion a)
                     ++ kept "only_base_url"
                          (JBool <$> KnowledgeClient.only_base_url a))))])
  /\
  (forall (a : KnowledgeClient.create_args) (t : string),
      KnowledgeClient.method a = "text" ->
      KnowledgeClient.text a = Some t ->
      t <> EmptyString ->
      map body (issued (KnowledgeClient.create this a) w)
      = [Some (JSON_stringify
                 (JObject [("name", JString (KnowledgeClient.name a));
                           ("text", JString t)]))])
  /\
  (forall a : ReplyClient.reply_args,
      map body (issued (ReplyClient.create this a) w)
      = [Some (JSON_stringify (JObject (reply_body_kept a)))]
      /\ map body (issued (ReplyClient.stream this a) w)
         = [Some (JSON_stringify (JObject (reply_body_kept a)))])
  /\
  (forall (k : string) (x : option JSON),
      kept k x = if truthy_opt x then supplied k x else []).
Proof.
  split; [|split; [|split]].
  - intros a u Hm Hu Hne Hp.
    now rewrite (issued_app _ _ _ (knowledge_create_url_calls this a u w Hm Hu Hne Hp)).
  - intros a t Hm Ht Hne.
    now rewrite (issued_app _ _ _ (knowledge_create_text_calls this a t w Hm Ht Hne)).
  - intros a. split.
    + pose proof (reply_create_run this a w) as E. cbn zeta in E.
      erewrite issued_app by (rewrite E; reflexivity).
      cbn. now rewrite reply_body_is_kept.
    + pose proof (reply_stream_run this a w) as E. cbn zeta in E.
      erewrite issued_app by (rewrite E; reflexivity).
      cbn. now rewrite reply_body_is_kept.
  - apply kept_supplied_truthy.
Qed.

Lemma creation_body_keeps_truthy_optionals_witness :
  map body
    (issued (KnowledgeClient.create (H := server_replying response_200)
               (Knowledge (pai "key")) url_args) new_world)
  = [Some (JSON_stringify
             (JObject [("name", JString "docs");
                       ("url", JString "https://example.org/a");
                       ("recursion", JBool true);
                       ("max_recursion", JNumber 3%Z)]))]
  /\
  map body
    (issued (KnowledgeClient.create (H := server_replying response_200)
               (Knowledge (pai "key")) text_args) new_world)
  = [Some (JSON_stringify
             (JObject [("name", JString "note"); ("text", JString "hello")]))].
Proof.
  destruct (creation_body_keeps_truthy_optionals
              (H := server_replying response_200) (Knowledge (pai "key"))
              new_world) as (Hurl & Htext & _).
  split.
  - apply (Hurl url_args "https://example.org/a");
      [reflexivity | reflexivity | discriminate | reflexivity].
  - apply (Htext text_args "hello");
      [reflexivity | reflexivity | discriminate].
Defined.

(** C10. [KnowledgeClient.create] with method "text" and a non-empty text
    posts a body with exactly the two fields [name] and [text], whatever the
    URL-mode arguments are; with method "url" (and a valid url) the body has
    no [text] field. *)
Theorem knowledge_create_body_by_mode `{Platform} (this : BaseClient)
    (a : KnowledgeClient.create_args) (w : World) :
  (forall t : string,
      KnowledgeClient.method a = "text" ->
      KnowledgeClient.text a = Some t ->
      t <> EmptyString ->
      exists fields : object,
        map body (issued (KnowledgeClient.create this a) w)
        = [Some (JSON_stringify (JObject fields))]
        /\ fields = [("name", JString (KnowledgeClient.name a));
                     ("text", JString t)]
        /\ obj_keys fields = ["name"; "text"])
  /\
  (forall u : string,
      KnowledgeClient.method a = "url" ->
      KnowledgeClient.url a = Some u ->
      u <> EmptyString ->
      URL_parses u = true ->
      exists fields : object,
        map body (issued (KnowledgeClient.create this a) w)
        = [Some (JSON_stringify (JObject fields))]
        /\ obj_get "text" fields = None
        /\ ~ In "text" (obj_keys fields)).
Proof.
  split.
  - intros t Hm Ht Hne. eexists. split; [|split; reflexivity].
    now rewrite (issued_app _ _ _ (knowledge_create_text_calls this a t w Hm Ht Hne)).
  - intros u Hm Hu Hne Hp. exists (url_body_kept a u). split; [|split].
    + now rewrite (issued_app _ _ _ (knowledge_create_url_calls this a u w Hm Hu Hne Hp)).
    + unfold url_body_kept. fresh_key.
    + unfold url_body_kept, obj_keys, kept.
      destruct (KnowledgeClient.recursion a) as [[]|];
        destruct (KnowledgeClient.max_recursion a) as [[]|];
        destruct (KnowledgeClient.only_base_url a) as [[]|];
        cbn; intros Hin; repeat (destruct Hin as [Hin|Hin]; [discriminate|]);
        exact Hin.
Qed.

Lemma knowledge_create_body_by_mode_witness :
  (exists fields : object,
      map body
        (issued (KnowledgeClient.create (H := server_replying response_200)
                   (Knowledge (pai "key")) text_args) new_world)
      = [Some (JSON_stringify (JObject fields))]
      /\ fields = [("name", JString "note"); ("text", JString "hello")]
      /\ obj_keys fields = ["name"; "text"])
  /\
  (exists fields : object,
      map body
        (issued (KnowledgeClient.create (H := server_replying response_200)
                   (Knowledge (pai "key")) url_args) new_world)
      = [Some (JSON_stringify (JObject fields))]
      /\ obj_get "text" fields = None
      /\ ~ In "text" (obj_keys fields)).
Proof.
  split.
  - apply (proj1 (knowledge_create_body_by_mode
                    (H := server_replying response_200)
                    (Knowledge (pai "key")) text_args new_world) "hello");
      [reflexivity | reflexivity | discriminate].
  - apply (proj2 (knowledge_create_body_by_mode
                    (H := server_replying response_200)
                    (Knowledge (pai "key")) url_args new_world)
             "https://example.org/a");
      [reflexivity | reflexivity | discriminate | reflexivity].
Defined.

(** ** Responses to the reply methods *)

(** C6, as stated, fails: a response whose body is present and empty is not
    answered with "No response body."; [ReplyClient.create] returns it. *)
Lemma reply_create_returns_empty_body_response :
  response_body response_empty_body = Some []
  /\ fst (ReplyClient.create (H := server_replying response_empty_body)
            (Reply (pai "key")) reply_args0 new_world)
     = Normal (VResponse response_empty_body)
  /\ fst (ReplyClient.create (H := server_replying response_empty_body)
            (Reply (pai "key")) reply_args0 new_world)
     <> Normal (VError "No response body.").
Proof. repeat split. vm_compute. discriminate. Qed.

(** C6, amended. When the response to [ReplyClient.create] or
    [ReplyClient.stream] has no body ([response.body] is [null]) the call
    returns the error "No response body."; when it has a body, empty or not,
    [create] returns the raw response and [stream] returns the body wrapped
    as a text stream.  In each case the only [await] is that of [fetch]:
    [response.json()] is not awaited. *)
Theorem reply_checks_for_absent_body `{Platform} (this : BaseClient)
    (a : ReplyClient.reply_args) (w : World) :
  (forall (req : Request) (r : Response),
      calls (snd (ReplyClient.create this a w)) = calls w ++ [req] ->
      network req = Normal r ->
      (response_body r = None ->
       fst (ReplyClient.create this a w) = Normal (VError "No response body."))
      /\ (forall chunks : list string, response_body r = Some chunks ->
          fst (ReplyClient.create this a w) = Normal (VResponse r))
      /\ awaits (snd (ReplyClient.create this a w)) = S (awaits w))
  /\
  (forall (req : Request) (r : Response),
      calls (snd (ReplyClient.stream this a w)) = calls w ++ [req] ->
      network req = Normal r ->
      (response_body r = None ->
       fst (ReplyClient.stream this a w) = Normal (VError "No response body."))
      /\ (forall chunks : list string, response_body r = Some chunks ->
          fst (ReplyClient.stream this a w)
          = Normal (VStreamingTextResponse chunks))
      /\ awaits (snd (ReplyClient.stream this a w)) = S (awaits w)).
Proof.
  split; intros req r Hc Hn.
  - pose proof (reply_create_run this a w) as E. cbn zeta in E.
    rewrite E in Hc |- *. cbn [fst snd calls awaits] in Hc |- *.
    apply last_call_eq in Hc. rewrite Hc, Hn.
    repeat split; [intros -> | intros chunks ->]; reflexivity.
  - pose proof (reply_stream_run this a w) as E. cbn zeta in E.
    rewrite E in Hc |- *. cbn [fst snd calls awaits] in Hc |- *.
    apply last_call_eq in Hc. rewrite Hc, Hn.
    repeat split; [intros -> | intros chunks ->]; reflexivity.
Qed.

Lemma reply_checks_for_absent_body_witness :
  fst (ReplyClient.create (H := server_replying response_no_body)
         (Reply (pai "key")) reply_args0 new_world)
  = Normal (VError "No response body.")
  /\
  fst (ReplyClient.stream (H := server_replying response_200)
         (Reply (pai "key")) reply_args0 new_world)
  = Normal (VStreamingTextResponse [JSON_stringify kb1]).
Proof.
  split.
  - edestruct (proj1 (reply_checks_for_absent_body
                        (H := server_replying response_no_body)
                        (Reply (pai "key")) reply_args0 new_world))
      as (Hnone & _ & _); [reflexivity | reflexivity |].
    apply Hnone. reflexivity.
  - edestruct (proj2 (reply_checks_for_absent_body
                        (H := server_replying response_200)
                        (Reply (pai "key")) reply_args0 new_world))
      as (_ & Hsome & _); [reflexivity | reflexivity |].
    apply Hsome. reflexivity.
Defined.

(** ** Failed statuses *)

(** C7, as stated, fails: [ReplyClient.create] hands a response with status
    500 and a body back to its caller as the value of the call, not as an
    error value. *)
Lemma reply_create_returns_failed_response :
  ok response_500 = false
  /\ fst (perform (H := server_replying response_500) (pai "key")
            (Reply_create reply_args0) new_world)
     = Normal (VResponse response_500)
  /\ fst (perform (H := server_replying response_500) (pai "key")
            (Reply_create reply_args0) new_world)
     <> Normal (VError (statusText response_500))
  /\ fst (perform (H := server_replying response_500) (pai "key")
            (Reply_create reply_args0) new_world)
     <> Normal (VError "No response body.").
Proof. repeat split; vm_compute; discriminate. Qed.

(** C7, amended. For every operation of [KnowledgeBaseClient] and
    [KnowledgeClient] whose request got a response with a status outside
    200-299, the call returns an error value carrying the status text.  The
    reply methods do not look at the status: they return the error
    "No response body." when the response has no body, and
    [ReplyClient.create] returns a response that has a body as it is. *)
Theorem failed_status_surfaces `{Platform} (f : Facade) (op : Operation)
    (w : World) (req : Request) (r : Response) :
  calls (snd (perform f op w)) = calls w ++ [req] ->
  network req = Normal r ->
  (normalised op = true -> ok r = false ->
   fst (perform f op w) = Normal (VError (statusText r)))
  /\ (normalised op = false -> response_body r = None ->
      fst (perform f op w) = Normal (VError "No response body."))
  /\ (forall a : ReplyClient.reply_args,
        op = Reply_create a -> response_body r <> None ->
        fst (perform f op w) = Normal (VResponse r)).
Proof.
  intros Hc Hn. split; [|split].
  - intros Hnorm Hok.
    destruct (well_formed op) eqn:Hwf.
    + destruct (normalised_cases f op w Hnorm Hwf) as (m & path & b & _ & Hr).
      rewrite Hr in Hc |- *. rewrite fetch_safeFetchCall_calls in Hc.
      apply last_call_eq in Hc. rewrite fetch_safeFetchCall_run, Hc, Hn.
      now rewrite safeFetchCall_failed.
    + pose proof (perform_issued_invalid f op w Hwf) as Hi.
      rewrite (issued_app _ _ _ Hc) in Hi. discriminate.
  - intros Hnorm Hb. destruct op; try discriminate Hnorm; cbn [perform] in *.
    + pose proof (reply_create_run (Reply f) a w) as E. cbn zeta in E.
      rewrite E in Hc |- *. cbn [fst snd calls] in Hc |- *.
      apply last_call_eq in Hc. now rewrite Hc, Hn, Hb.
    + pose proof (reply_stream_run (Reply f) a w) as E. cbn zeta in E.
      rewrite E in Hc |- *. cbn [fst snd calls] in Hc |- *.
      apply last_call_eq in Hc. now rewrite Hc, Hn, Hb.
  - intros a -> Hb. cbn [perform] in *.
    pose proof (reply_create_run (Reply f) a w) as E. cbn zeta in E.
    rewrite E in Hc |- *. cbn [fst snd calls] in Hc |- *.
    apply last_call_eq in Hc. rewrite Hc, Hn.
    destruct (response_body r); [reflexivity | contradiction].
Qed.

Lemma failed_status_surfaces_witness :
  fst (perform (H := server_replying response_404) (pai "key")
         (KnowledgeBase_get 42%Z) new_world)
  = Normal (VError "Not Found")
  /\
  fst (perform (H := server_replying response_no_body) (pai "key")
         (Reply_stream reply_args0) new_world)
  = Normal (VError "No response body.").
Proof.
  split.
  - edestruct (failed_status_surfaces (H := server_replying response_404)
                 (pai "key") (KnowledgeBase_get 42%Z) new_world)
      as (Hfail & _ & _); [reflexivity | reflexivity |].
    apply Hfail; reflexivity.
  - edestruct (failed_status_surfaces (H := server_replying response_no_body)
                 (pai "key") (Reply_stream reply_args0) new_world)
      as (_ & Hnobody & _); [reflexivity | reflexivity |].
    apply Hnobody; reflexivity.
Defined.

(** ** Endpoints and headers *)

(** C8. With the clients of the factory, every operation that passes
    validation issues one request, whose HTTP method and path are those of
    the table of operations, the path prefixed by https://api.prism-ai.ch.
    In particular [KnowledgeBaseClient.get] issues GET
    /users/knowledge_base/{kb_id}/ and [KnowledgeBaseClient.delete] issues
    DELETE /knowledge_base/{kb_id}/, for every [kb_id]. *)
Theorem operations_target_endpoints `{Platform} (api_key : string) (w : World) :
  (forall op : Operation,
      well_formed op = true ->
      exists (m : HttpMethod) (path : string) h b,
        endpoint op = Some (m, path)
        /\ issued (perform (pai api_key) op) w
           = [mkRequest ("https://api.prism-ai.ch" +:+ path) m h b])
  /\
  (forall kb_id : number,
      exists h b,
        issued (KnowledgeBaseClient.get (KnowledgeBase (pai api_key)) kb_id) w
        = [mkRequest
             ("https://api.prism-ai.ch/users/knowledge_base/" +:+
              Number_toString kb_id +:+ "/") GET h b])
  /\
  (forall kb_id : number,
      exists h b,
        issued (KnowledgeBaseClient.delete (KnowledgeBase (pai api_key)) kb_id) w
        = [mkRequest
             ("https://api.prism-ai.ch/knowledge_base/" +:+
              Number_toString kb_id +:+ "/") DELETE h b]).
Proof.
  split; [|split].
  - intros op Hwf.
    destruct (perform_issued (pai api_key) op w Hwf) as (m & path & b & He & Hi).
    exists m, path. rewrite Hi.
    destruct op; (do 2 eexists; split; [exact He | reflexivity]).
  - intros kb_id. do 2 eexists. apply issued_app.
    unfold KnowledgeBaseClient.get. rewrite fetch_safeFetchCall_calls.
    reflexivity.
  - intros kb_id. do 2 eexists. apply issued_app.
    unfold KnowledgeBaseClient.delete. rewrite fetch_safeFetchCall_calls.
    reflexivity.
Qed.

Lemma operations_target_endpoints_witness :
  exists (m : HttpMethod) (path : string) h b,
    endpoint (Knowledge_create url_args) = Some (m, path)
    /\ issued (perform (H := server_replying response_200) (pai "key")
                 (Knowledge_create url_args)) new_world
       = [mkRequest ("https://api.prism-ai.ch" +:+ path) m h b].
Proof.
  apply (proj1 (operations_target_endpoints
                  (H := server_replying response_200) "key" new_world)
           (Knowledge_create url_args)).
  reflexivity.
Defined.

(** C9. Every request issued by an operation of the clients built by the
    factory carries Content-Type: application/json, Authorization: the
    credential given to the factory, and Accept: application/json, except
    that [ReplyClient.stream] sends Accept: text/response-stream. *)
Theorem every_request_carries_headers `{Platform} (api_key : string)
    (op : Operation) (w : World) (req : Request) :
  In req (issued (perform (pai api_key) op) w) ->
  headers req !! "Content-Type" = Some "application/json"
  /\ headers req !! "Authorization" = Some api_key
  /\ headers req !! "Accept"
     = Some match op with
            | Reply_stream _ => "text/response-stream"
            | _ => "application/json"
            end.
Proof.
  intros Hin. destruct (well_formed op) eqn:Hwf.
  - destruct (perform_issued (pai api_key) op w Hwf) as (m & path & b & _ & Hi).
    rewrite Hi in Hin. destruct Hin as [<- | []]. cbn [headers].
    destruct (new_BaseClient_headers api_key "https://api.prism-ai.ch")
      as (Hct & Hauth & Hacc).
    destruct op; cbn [client_of pai KnowledgeBase Knowledge Reply];
      try (repeat split; assumption);
      (repeat split;
       [ rewrite lookup_insert_ne by discriminate; exact Hct
       | rewrite lookup_insert_ne by discriminate; exact Hauth
       | apply lookup_insert_eq ]).
  - rewrite (perform_issued_invalid _ _ _ Hwf) in Hin. destruct Hin.
Qed.

Lemma every_request_carries_headers_witness :
  headers stream_request0 !! "Content-Type" = Some "application/json"
  /\ headers stream_request0 !! "Authorization" = Some "key"
  /\ headers stream_request0 !! "Accept" = Some "text/response-stream".
Proof.
  apply (every_request_carries_headers (H := server_replying response_200)
           "key" (Reply_stream reply_args0) new_world stream_request0).
  left. reflexivity.
Defined.

(** * Further properties of the client *)

(** ** How a call ends *)

Lemma safeFetchCall_rejected (e : Exception) (w : World) :
  safeFetchCall (Throw e) w = (Throw e, mkWorld (calls w) (S (awaits w))).
Proof. reflexivity. Qed.

Lemma safeFetchCall_not_json (r : Response) (w : World) :
  ok r = true ->
  response_json r = None ->
  safeFetchCall (Normal r) w
  = (Throw (SyntaxError "Unexpected end of JSON input"),
     mkWorld (calls w) (S (S (awaits w)))).
Proof. intros Hok Hj. run_async. now rewrite Hok, Hj. Qed.

(** An operation of the first two clients that issued [req] goes on as
    [safeFetchCall] on what the network makes of [req]. *)
Lemma normalised_run `{Platform} (f : Facade) (op : Operation) (w : World)
    (req : Request) :
  normalised op = true ->
  calls (snd (perform f op w)) = calls w ++ [req] ->
  perform f op w
  = safeFetchCall (network req) (mkWorld (calls w ++ [req]) (awaits w)).
Proof.
  intros Hnorm Hc. destruct (well_formed op) eqn:Hwf.
  - destruct (normalised_cases f op w Hnorm Hwf) as (m & path & b & _ & Hr).
    rewrite Hr in Hc |- *. rewrite fetch_safeFetchCall_calls in Hc.
    apply last_call_eq in Hc. now rewrite fetch_safeFetchCall_run, Hc.
  - pose proof (perform_issued_invalid f op w Hwf) as Hi.
    rewrite (issued_app _ _ _ Hc) in Hi. discriminate.
Qed.

(** X1. When the network fails the request of an operation (the promise of
    [fetch] rejects), the call rejects with the same exception; it is not
    turned into a returned error value, and nothing is retried. *)
Theorem network_failure_rejects `{Platform} (f : Facade) (op : Operation)
    (w : World) (req : Request) (e : Exception) :
  calls (snd (perform f op w)) = calls w ++ [req] ->
  network req = Throw e ->
  perform f op w = (Throw e, mkWorld (calls w ++ [req]) (S (awaits w))).
Proof.
  intros Hc Hn. destruct (normalised op) eqn:Hnorm.
  - rewrite (normalised_run f op w req Hnorm Hc), Hn.
    rewrite safeFetchCall_rejected. reflexivity.
  - destruct op; try discriminate Hnorm; cbn [perform] in *.
    + pose proof (reply_create_run (Reply f) a w) as E. cbn zeta in E.
      rewrite E in Hc |- *. cbn [fst snd calls] in Hc.
      apply last_call_eq in Hc. now rewrite Hc, Hn.
    + pose proof (reply_stream_run (Reply f) a w) as E. cbn zeta in E.
      rewrite E in Hc |- *. cbn [fst snd calls] in Hc.
      apply last_call_eq in Hc. now rewrite Hc, Hn.
Qed.

Lemma network_failure_rejects_witness :
  fst (perform (H := server_failing) (pai "key") (Reply_create reply_args0)
         new_world)
  = Throw (TypeError "fetch failed")
  /\
  fst (perform (H := server_failing) (pai "key") (Knowledge_get 9%Z) new_world)
  = Throw (TypeError "fetch failed").
Proof.
  split.
  - erewrite (network_failure_rejects (H := server_failing) (pai "key")
                (Reply_create reply_args0) new_world);
      [reflexivity | reflexivity | reflexivity].
  - erewrite (network_failure_rejects (H := server_failing) (pai "key")
                (Knowledge_get 9%Z) new_world);
      [reflexivity | reflexivity | reflexivity].
Defined.

(** X2. When an operation of [KnowledgeBaseClient] or [KnowledgeClient] gets
    a response with a status in 200-299 whose body is not JSON (a 204
    without content, say), the call rejects with the [SyntaxError] of
    [response.json()]: it neither returns a value nor an error value. *)
Theorem success_without_json_rejects `{Platform} (f : Facade) (op : Operation)
    (w : World) (req : Request) (r : Response) :
  normalised op = true ->
  calls (snd (perform f op w)) = calls w ++ [req] ->
  network req = Normal r ->
  (200 <= status r <= 299)%Z ->
  response_json r = None ->
  exists message : string,
    fst (perform f op w) = Throw (SyntaxError message)
    /\ issued (perform f op) w = [req].
Proof.
  intros Hnorm Hc Hn Hs Hj. apply ok_true_iff in Hs.
  eexists. split.
  - rewrite (normalised_run f op w req Hnorm Hc), Hn.
    rewrite (safeFetchCall_not_json r _ Hs Hj). reflexivity.
  - now apply issued_app.
Qed.

Lemma success_without_json_rejects_witness :
  exists message : string,
    fst (perform (H := server_replying response_no_body) (pai "key")
           (KnowledgeBase_delete 42%Z) new_world)
    = Throw (SyntaxError message)
    /\ issued (perform (H := server_replying response_no_body) (pai "key")
                 (KnowledgeBase_delete 42%Z)) new_world
       = [mkRequest "https://api.prism-ai.ch/knowledge_base/42/" DELETE
            (client_headers (new_BaseClient "key" "https://api.prism-ai.ch"))
            None].
Proof.
  apply (success_without_json_rejects (H := server_replying response_no_body)
           (pai "key") (KnowledgeBase_delete 42%Z) new_world _
           response_no_body).
  - reflexivity.
  - reflexivity.
  - reflexivity.
  - split; discriminate.
  - reflexivity.
Defined.

(** X3. When an operation of [KnowledgeBaseClient] or [KnowledgeClient] gets
    a response with a status in 200-299 and a JSON body, the call returns
    that JSON value as it is, after the one request and two [await]s (the
    response, then its body). *)
Theorem success_passes_json_through `{Platform} (f : Facade) (op : Operation)
    (w : World) (req : Request) (r : Response) (v : JSON) :
  normalised op = true ->
  calls (snd (perform f op w)) = calls w ++ [req] ->
  network req = Normal r ->
  (200 <= status r <= 299)%Z ->
  response_json r = Some v ->
  perform f op w
  = (Normal (VJson v), mkWorld (calls w ++ [req]) (S (S (awaits w)))).
Proof.
  intros Hnorm Hc Hn Hs Hj. apply ok_true_iff in Hs.
  rewrite (normalised_run f op w req Hnorm Hc), Hn.
  rewrite (safeFetchCall_parsed r v _ Hs Hj). reflexivity.
Qed.

Lemma success_passes_json_through_witness :
  fst (perform (H := server_replying response_200) (pai "key")
         (KnowledgeBase_create "kb1") new_world)
  = Normal (VJson kb1).
Proof.
  erewrite (success_passes_json_through (H := server_replying response_200)
              (pai "key") (KnowledgeBase_create "kb1") new_world _
              response_200 kb1);
    [reflexivity | reflexivity | reflexivity | reflexivity
    | split; discriminate | reflexivity].
Defined.

(** ** One request, and what comes back *)

Lemma perform_calls `{Platform} (f : Facade) (op : Operation) (w : World) :
  calls (snd (perform f op w)) = calls w ++ issued (perform f op) w.
Proof.
  assert (Hl : exists l, calls (snd (perform f op w)) = calls w ++ l).
  { destruct (well_formed op) eqn:Hwf.
    - destruct (normalised op) eqn:Hnorm.
      + destruct (normalised_cases f op w Hnorm Hwf) as (m & path & b & _ & Hr).
        rewrite Hr, fetch_safeFetchCall_calls. eauto.
      + destruct op; try discriminate Hnorm; cbn [perform].
        * pose proof (reply_create_run (Reply f) a w) as E. cbn zeta in E.
          rewrite E. cbn [snd calls]. eauto.
        * pose proof (reply_stream_run (Reply f) a w) as E. cbn zeta in E.
          rewrite E. cbn [snd calls]. eauto.
    - destruct op; try discriminate Hwf. cbn [perform].
      destruct (knowledge_create_cases (Knowledge f) a w)
        as [[_ (msg & E)] | [Ht _]].
      + exists []. rewrite E. cbn. now rewrite app_nil_r.
      + rewrite Ht in Hwf. discriminate. }
  destruct Hl as (l & Hl). now rewrite (issued_app _ _ _ Hl).
Qed.


(** X4. An operation issues exactly one request when its arguments pass
    validation and none otherwise, and leaves the earlier requests as they
    were; nothing is sent twice.  Only [KnowledgeClient.create] validates:
    a call that sends nothing is a [KnowledgeClient.create] that threw a
    [ValidationError] and changed nothing. *)
Theorem one_request_when_validated `{Platform} (f : Facade) (op : Operation)
    (w : World) :
  calls (snd (perform f op w)) = calls w ++ issued (perform f op) w
  /\ length (issued (perform f op) w) = (if well_formed op then 1 else 0)
  /\ (well_formed op = false ->
      exists (a : KnowledgeClient.create_args) (message : string),
        op = Knowledge_create a
        /\ perform f op w = (Throw (ValidationError message), w)).
Proof.
  split; [apply perform_calls|]. split.
  - destruct (well_formed op) eqn:Hwf.
    + destruct (perform_issued f op w Hwf) as (m & path & b & _ & Hi).
      now rewrite Hi.
    + now rewrite (perform_issued_invalid f op w Hwf).
  - intros Hwf. destruct op; try discriminate Hwf. cbn [perform].
    destruct (knowledge_create_cases (Knowledge f) a w)
      as [[_ (msg & E)] | [Ht _]].
    + exists a, msg. split; [reflexivity | exact E].
    + rewrite Ht in Hwf. discriminate.
Qed.

Lemma one_request_when_validated_witness :
  exists (a : KnowledgeClient.create_args) (message : string),
    Knowledge_create path_args = Knowledge_create a
    /\ perform (H := server_replying response_200) (pai "key")
         (Knowledge_create path_args) new_world
       = (Throw (ValidationError message), new_world).
Proof.
  apply (proj2 (proj2 (one_request_when_validated
                         (H := server_replying response_200) (pai "key")
                         (Knowledge_create path_args) new_world))).
  reflexivity.
Defined.



(** ** Arguments of the other mode *)

(** X6. [KnowledgeClient.create] looks only at the arguments of the mode it
    is called in.  In "text" mode the url and the crawl options are neither
    validated nor sent: two calls that agree on name, knowledge base and
    text behave alike.  In "url" mode the text is ignored in the same
    way. *)
Theorem create_ignores_other_mode `{Platform} (this : BaseClient)
    (a a' : KnowledgeClient.create_args) (w : World) :
  KnowledgeClient.method a = KnowledgeClient.method a' ->
  KnowledgeClient.name a = KnowledgeClient.name a' ->
  KnowledgeClient.kb_id a = KnowledgeClient.kb_id a' ->
  (KnowledgeClient.method a = "text" ->
   KnowledgeClient.text a = KnowledgeClient.text a' ->
   KnowledgeClient.create this a w = KnowledgeClient.create this a' w)
  /\
  (KnowledgeClient.method a = "url" ->
   KnowledgeClient.url a = KnowledgeClient.url a' ->
   KnowledgeClient.recursion a = KnowledgeClient.recursion a' ->
   KnowledgeClient.max_recursion a = KnowledgeClient.max_recursion a' ->
   KnowledgeClient.only_base_url a = KnowledgeClient.only_base_url a' ->
   KnowledgeClient.create this a w = KnowledgeClient.create this a' w).
Proof.
  intros Hm Hname Hkb. split.
  - intros Ht Htext. unfold KnowledgeClient.create.
    rewrite <- Hm, <- Hname, <- Hkb, <- Htext, Ht. reflexivity.
  - intros Hu Hurl Hr Hmr Hob. unfold KnowledgeClient.create.
    rewrite <- Hm, <- Hname, <- Hkb, <- Hurl, <- Hr, <- Hmr, <- Hob, Hu.
    reflexivity.
Qed.

Lemma create_ignores_other_mode_witness :
  KnowledgeClient.create (H := server_replying response_200)
    (Knowledge (pai "key")) text_args new_world
  = KnowledgeClient.create (H := server_replying response_200)
      (Knowledge (pai "key")) text_only_args new_world.
Proof.
  apply (proj1 (create_ignores_other_mode (H := server_replying response_200)
                  (Knowledge (pai "key")) text_args text_only_args new_world
                  eq_refl eq_refl eq_refl));
    reflexivity.
Defined.

(** ** The shape of a request *)

(** X7. A request carries a body exactly when it is a POST: the create and
    reply methods post a serialized JSON object, the get and delete methods
    send no body. *)
Theorem body_only_on_post `{Platform} (f : Facade) (op : Operation) (w : World)
    (req : Request) :
  In req (issued (perform f op) w) ->
  (method req = POST /\
   exists fields : object, body req = Some (JSON_stringify (JObject fields)))
  \/ ((method req = GET \/ method req = DELETE) /\ body req = None).
Proof.
  intros Hin.
  destruct op; cbn [perform] in Hin.
  - unfold KnowledgeBaseClient.create in Hin.
    erewrite issued_app in Hin by apply fetch_safeFetchCall_calls.
    destruct Hin as [<- | []]. left. split; [reflexivity | eexists; reflexivity].
  - unfold KnowledgeBaseClient.get in Hin.
    erewrite issued_app in Hin by apply fetch_safeFetchCall_calls.
    destruct Hin as [<- | []]. right. split; [auto | reflexivity].
  - unfold KnowledgeBaseClient.delete in Hin.
    erewrite issued_app in Hin by apply fetch_safeFetchCall_calls.
    destruct Hin as [<- | []]. right. split; [auto | reflexivity].
  - destruct (knowledge_create_cases (Knowledge f) a w)
      as [[_ (msg & E)] | [_ (path & fields & _ & E)]].
    + erewrite issued_app in Hin
        by (rewrite E; cbn [snd]; symmetry; apply app_nil_r).
      destruct Hin.
    + erewrite issued_app in Hin
        by (rewrite E; apply fetch_safeFetchCall_calls).
      destruct Hin as [<- | []]. left. split; [reflexivity | eexists; reflexivity].
  - unfold KnowledgeClient.get in Hin.
    erewrite issued_app in Hin by apply fetch_safeFetchCall_calls.
    destruct Hin as [<- | []]. right. split; [auto | reflexivity].
  - unfold KnowledgeClient.delete in Hin.
    erewrite issued_app in Hin by apply fetch_safeFetchCall_calls.
    destruct Hin as [<- | []]. right. split; [auto | reflexivity].
  - pose proof (reply_create_run (Reply f) a w) as E. cbn zeta in E.
    erewrite issued_app in Hin by (rewrite E; reflexivity).
    destruct Hin as [<- | []]. left. split; [reflexivity | eexists; reflexivity].
  - pose proof (reply_stream_run (Reply f) a w) as E. cbn zeta in E.
    erewrite issued_app in Hin by (rewrite E; reflexivity).
    destruct Hin as [<- | []]. left. split; [reflexivity | eexists; reflexivity].
Qed.

Lemma body_only_on_post_witness :
  (method stream_request0 = POST /\
   exists fields : object,
     body stream_request0 = Some (JSON_stringify (JObject fields)))
  \/ ((method stream_request0 = GET \/ method stream_request0 = DELETE)
      /\ body stream_request0 = None).
Proof.
  apply (body_only_on_post (H := server_replying response_200) (pai "key")
           (Reply_stream reply_args0) new_world stream_request0).
  left. reflexivity.
Defined.

(** X8. The three headers are all there is: every request of a client
    built by the factory has exactly the header names Content-Type, Accept
    and Authorization; the reply methods replace the value of Accept and add
    no header. *)
Theorem exactly_three_headers `{Platform} (api_key : string) (op : Operation)
    (w : World) (req : Request) :
  In req (issued (perform (pai api_key) op) w) ->
  dom (headers req)
  = ({[ "Content-Type"; "Accept"; "Authorization" ]} : gset string).
Proof.
  intros Hin. destruct (well_formed op) eqn:Hwf.
  - destruct (perform_issued (pai api_key) op w Hwf) as (m & path & b & _ & Hi).
    rewrite Hi in Hin. destruct Hin as [<- | []]. cbn [headers].
    destruct op;
      cbn [client_of pai KnowledgeBase Knowledge Reply new_BaseClient
           client_headers];
      rewrite !dom_insert_L, dom_empty_L; set_solver.
  - rewrite (perform_issued_invalid _ _ _ Hwf) in Hin. destruct Hin.
Qed.

Lemma exactly_three_headers_witness :
  dom (headers stream_request0)
  = ({[ "Content-Type"; "Accept"; "Authorization" ]} : gset string).
Proof.
  apply (exactly_three_headers (H := server_replying response_200)
           "key" (Reply_stream reply_args0) new_world stream_request0).
  left. reflexivity.
Defined.

(** ** Identifiers in paths *)







